(** * dim: a client for the Dim media server's HTTP API

    A shallow embedding of [dim/api.py] and [dim/decorators.py].

    Python values are a small universe [pyval]; the client object is a record
    holding [_url] and [_token] together with the trace of the requests its
    session has sent; methods are computations in a state-and-exception
    monad over that record.  The HTTP session (and the server behind it) is
    an interface: a function from a request to a response or a raised
    exception. *)

From Stdlib Require Import ZArith List String Ascii Bool.
From Stdlib Require Import QArith_base DecimalString.
Import ListNotations.

#[local] Set Warnings "-register-all".
Local Open Scope list_scope.
Local Open Scope string_scope.

(* ================================================================== *)
(** ** Python values *)

Module Py.

Inductive pyval : Type :=
| PNone
| PBool (b : bool)
| PInt (z : Z)
| PFloat (q : Q)
| PStr (s : string)
| PList (l : list pyval)
| PDict (d : list (string * pyval)).

Inductive exn : Type :=
| Exception (msg : string)
| KeyError (key : string)
| TypeError
| JSONDecodeError
| ConnectionError.

Inductive result (A : Type) : Type :=
| Ok (a : A)
| Raise (e : exn).

Arguments Ok {A} a.
Arguments Raise {A} e.

(** [bool(v)]: [None], [False], zero, and the empty string, list and dict
    are falsy; everything else is truthy. *)
Definition truthy (v : pyval) : bool :=
  match v with
  | PNone => false
  | PBool b => b
  | PInt z => negb (Z.eqb z 0)
  | PFloat q => negb (Qeq_bool q (Qmake 0 1))
  | PStr s => negb (String.eqb s "")
  | PList l => match l with [] => false | _ :: _ => true end
  | PDict d => match d with [] => false | _ :: _ => true end
  end.

(** A dict is an association list; a key is looked up from the front. *)
Fixpoint lookup (k : string) (d : list (string * pyval)) : option pyval :=
  match d with
  | [] => None
  | (k', v) :: d' => if String.eqb k k' then Some v else lookup k d'
  end.

(** [v[k]] for a string key [k]. *)
Definition getitem (v : pyval) (k : string) : result pyval :=
  match v with
  | PDict d =>
      match lookup k d with
      | Some x => Ok x
      | None => Raise (KeyError k)
      end
  | _ => Raise TypeError
  end.

(** [s.endswith("/")]. *)
Fixpoint endswith_slash (s : string) : bool :=
  match s with
  | EmptyString => false
  | String c EmptyString => Ascii.eqb c "/"
  | String _ s' => endswith_slash s'
  end.

(** [s[:-1]]: all but the last character (the empty string stays empty). *)
Fixpoint drop_last (s : string) : string :=
  match s with
  | EmptyString => EmptyString
  | String _ EmptyString => EmptyString
  | String c s' => String c (drop_last s')
  end.

(** [str(z)] for an integer. *)
Definition str_of_int (z : Z) : string := NilZero.string_of_int (Z.to_int z).

End Py.
Export Py.

(* ================================================================== *)
(** ** The HTTP session *)

Inductive verb : Type := GET | POST | PATCH | DELETE.

(** What one call of [session.get/post/patch/delete] is given. *)
Record Request : Type := mkRequest {
  req_verb : verb;
  req_url : string;
  req_params : pyval;
  req_headers : list (string * string);
  req_kwargs : list (string * pyval)
}.

(** What the client reads of a response: its status code (through [ok]),
    [text], and the outcome of [json()]. *)
Record Response : Type := mkResponse {
  status_code : Z;
  text : string;
  json : result pyval
}.

(** Modelled from the HTTP library, which is not part of the sources:
    [response.ok] is true when the status code is below 400, and the truth
    value of a response object ([if response:]) is its [ok]. *)
Definition ok (r : Response) : bool := Z.ltb (status_code r) 400.


(** The environment of the client.  [send] is the session together with the
    server: it answers a request with a response or raises.  [repr_other]
    is Python's [str] on floats, lists and dicts. *)
Class Runtime : Type := {
  send : Request -> result Response;
  repr_other : pyval -> string
}.

(** [f"{v}"]. *)
Definition py_str `{RT : Runtime} (v : pyval) : string :=
  match v with
  | PNone => "None"
  | PBool true => "True"
  | PBool false => "False"
  | PInt z => str_of_int z
  | PStr s => s
  | _ => repr_other v
  end.

(* ================================================================== *)
(** ** dim/static.py and dim/utils.py *)

Module static.

(** Modelled from the spec: [dim/static.py] is not part of the sources; the
    spec calls what a [_json] variant returns on a falsy response "an empty
    mapping". *)
Definition empty_dict : pyval := PDict [].

End static.

Module utils.

(** Modelled from the spec: [dim/utils.py] is not part of the sources.  The
    envelope normalization "unwrap [data] key if present; else pass through;
    empty mapping if the input is empty/falsy". *)
Definition _get_response_data (json_data : pyval) : pyval :=
  if negb (truthy json_data) then PDict []
  else match json_data with
       | PDict d =>
           match lookup "data" d with
           | Some x => x
           | None => json_data
           end
       | _ => json_data
       end.

(** Modelled from the spec: [dim/utils.py] is not part of the sources.  A
    value is an invalid choice when it is "outside the fixed set of allowed
    values". *)
Definition _is_invalid_choice (value : pyval) (name : string)
  (choices : list string) : bool :=
  match value with
  | PStr s => negb (existsb (String.eqb s) choices)
  | _ => true
  end.

(** The two remaining helpers of [dim/utils.py] only prepare query
    parameters; they are taken as they come. *)
Class Helpers : Type := {
  build_optional_params : list (string * pyval) -> pyval;
  int_list_to_string : pyval -> pyval
}.

End utils.
Export utils.

(* ================================================================== *)
(** ** The client object and its monad *)

(** [self]: the two attributes the methods read, and the requests the
    client has handed to its session so far, oldest first. *)
Record Client : Type := mkClient {
  _url : string;
  _token : pyval;
  sent : list Request
}.

Definition M (A : Type) : Type := Client -> result A * Client.

Definition ret {A} (a : A) : M A := fun self => (Ok a, self).

Definition raise {A} (e : exn) : M A := fun self => (Raise e, self).

Definition bind {A B} (m : M A) (k : A -> M B) : M B :=
  fun self =>
    match m self with
    | (Ok a, self') => k a self'
    | (Raise e, self') => (Raise e, self')
    end.

Notation "x <- m ;; k" := (bind m (fun x => k))
  (at level 61, m at next level, right associativity).
Notation "' pat <- m ;; k" := (bind m (fun x => match x with pat => k end))
  (at level 61, pat pattern, m at next level, right associativity).

(** [self._token = v]. *)
Definition set_token (v : pyval) : M unit :=
  fun self => (Ok tt, mkClient (_url self) v (sent self)).

(** A step that touches no attribute: it returns or raises. *)
Definition lift {A} (r : result A) : M A := fun self => (r, self).

(** [self._session.<verb>(url=..., params=..., headers=..., **kwargs)]: the
    request is recorded, then answered. *)
Definition session `{RT : Runtime} (v : verb) (url : string) (params : pyval)
  (headers : list (string * string)) (kwargs : list (string * pyval))
  : M Response :=
  fun self =>
    let rq := mkRequest v url params headers kwargs in
    (send rq, mkClient (_url self) (_token self) (sent self ++ [rq])%list).

(* ================================================================== *)
(** ** api.py: the transport core *)

Section Transport.

Context `{RT : Runtime}.

Definition _get (command params : pyval) : M Response :=
  fun self =>
    let params := if negb (truthy params) then PDict [] else params in
    let headers : list (string * string) := [] in
    let headers :=
      if truthy (_token self) then [("Authorization", py_str (_token self))]
      else headers in
    let url := _url self ++ "/" ++ py_str command in
    session GET url params headers [] self.

Definition _get_json (command params : pyval) : M pyval :=
  response <- _get command params ;;
  if ok response then lift (json response) else ret static.empty_dict.

Definition _post (command params : pyval) (kwargs : list (string * pyval))
  : M Response :=
  fun self =>
    let params := if negb (truthy params) then PDict [] else params in
    let headers : list (string * string) := [] in
    let headers :=
      if truthy (_token self) then [("Authorization", py_str (_token self))]
      else headers in
    let url := _url self ++ "/" ++ py_str command in
    session POST url params headers kwargs self.

Definition _post_json (command params : pyval)
  (kwargs : list (string * pyval)) : M pyval :=
  response <- _post command params kwargs ;;
  if ok response then lift (json response) else ret static.empty_dict.

Definition _patch (command params : pyval) (kwargs : list (string * pyval))
  : M Response :=
  fun self =>
    let params := if negb (truthy params) then PDict [] else params in
    let headers : list (string * string) := [] in
    let headers :=
      if truthy (_token self) then [("Authorization", py_str (_token self))]
      else headers in
    let url := _url self ++ "/" ++ py_str command in
    session PATCH url params headers kwargs self.

Definition _patch_json (command params : pyval)
  (kwargs : list (string * pyval)) : M pyval :=
  response <- _patch command params kwargs ;;
  if ok response then lift (json response) else ret static.empty_dict.

Definition _delete (command params : pyval) (kwargs : list (string * pyval))
  : M Response :=
  fun self =>
    let params := if negb (truthy params) then PDict [] else params in
    let headers : list (string * string) := [] in
    let headers :=
      if truthy (_token self) then [("Authorization", py_str (_token self))]
      else headers in
    let url := _url self ++ "/" ++ py_str command in
    session DELETE url params headers kwargs self.

Definition _delete_json (command params : pyval)
  (kwargs : list (string * pyval)) : M pyval :=
  response <- _delete command params kwargs ;;
  if ok response then lift (json response) else ret static.empty_dict.

(** The primitive of a verb, and its [_json] variant ([_get] takes no
    keyword arguments). *)
Definition primitive (v : verb) (command params : pyval)
  (kwargs : list (string * pyval)) : M Response :=
  match v with
  | GET => _get command params
  | POST => _post command params kwargs
  | PATCH => _patch command params kwargs
  | DELETE => _delete command params kwargs
  end.

Definition primitive_json (v : verb) (command params : pyval)
  (kwargs : list (string * pyval)) : M pyval :=
  match v with
  | GET => _get_json command params
  | POST => _post_json command params kwargs
  | PATCH => _patch_json command params kwargs
  | DELETE => _delete_json command params kwargs
  end.

Definition login_body (username password : pyval) : list (string * pyval) :=
  [("json", PDict [("username", username); ("password", password)])].

Definition _authenticate (username password : pyval) : M bool :=
  response <- _post_json (PStr "auth/login") PNone
                (login_body username password) ;;
  if truthy response then
    token <- lift (getitem response "token") ;;
    _ <- set_token token ;;
    ret true
  else ret false.

(** The URL [__init__] stores. *)
Definition api_url (base_url : string) : string :=
  let base_url := if endswith_slash base_url then drop_last base_url
                  else base_url in
  base_url ++ "/api/v1".

(** [API(base_url, username, password)]: the attributes are set, then the
    client authenticates. *)
Definition __init__ (base_url : string) (username password : pyval) : M unit :=
  fun self =>
    let self := mkClient (api_url base_url) PNone (sent self) in
    (authenticated <- _authenticate username password ;;
     if negb authenticated then raise (Exception "Authentication failed")
     else ret tt) self.

(** A fresh object before [__init__] runs. *)
Definition blank : Client := mkClient "" PNone [].

End Transport.

(* ================================================================== *)
(** ** decorators.py: the shaping wrappers *)

Section Decorators.

Context `{RT : Runtime}.

(** The wrapped method [func] yields a [(command, params)] pair. *)
Definition descriptor : Type := (pyval * pyval)%type.

Definition get_json (func : M descriptor) : M pyval :=
  '(command, params) <- func ;;
  if negb (truthy command) then ret (PDict [])
  else
    json_data <- _get_json command params ;;
    ret (_get_response_data json_data).

Definition post_json (func : M descriptor) : M pyval :=
  '(command, params) <- func ;;
  if negb (truthy command) then ret (PDict [])
  else
    json_data <- _post_json command params [] ;;
    ret (_get_response_data json_data).

Definition post_bool (func : M descriptor) : M bool :=
  '(command, params) <- func ;;
  if negb (truthy command) then ret false
  else
    res <- _post command params [] ;;
    ret (ok res).

Definition patch_json (func : M descriptor) : M pyval :=
  '(command, params) <- func ;;
  if negb (truthy command) then ret (PDict [])
  else
    json_data <- _patch_json command params [] ;;
    ret (_get_response_data json_data).

Definition patch_bool (func : M descriptor) : M bool :=
  '(command, params) <- func ;;
  if negb (truthy command) then ret false
  else
    res <- _patch command params [] ;;
    ret (ok res).

Definition delete_json (func : M descriptor) : M pyval :=
  '(command, params) <- func ;;
  if negb (truthy command) then ret (PDict [])
  else
    json_data <- _delete_json command params [] ;;
    ret (_get_response_data json_data).

Definition delete_bool (func : M descriptor) : M bool :=
  '(command, params) <- func ;;
  if negb (truthy command) then ret false
  else
    res <- _delete command params [] ;;
    ret (ok res).

(** The wrappers by verb. *)
Definition json_wrapper (v : verb) : M descriptor -> M pyval :=
  match v with
  | GET => get_json
  | POST => post_json
  | PATCH => patch_json
  | DELETE => delete_json
  end.

(** There is no [get_bool]. *)
Inductive write_verb : Type := WPOST | WPATCH | WDELETE.

Definition verb_of (w : write_verb) : verb :=
  match w with
  | WPOST => POST
  | WPATCH => PATCH
  | WDELETE => DELETE
  end.

Definition bool_wrapper (w : write_verb) : M descriptor -> M bool :=
  match w with
  | WPOST => post_bool
  | WPATCH => patch_bool
  | WDELETE => delete_bool
  end.

End Decorators.

(* ================================================================== *)
(** ** api.py: the endpoint surface *)

Section Endpoints.

Context `{RT : Runtime} `{HP : Helpers}.

(** Each [*_desc] is the method as written, before its decorator. *)

Definition libraries_desc : M descriptor := ret (PStr "library", PNone).
Definition libraries : M pyval := get_json libraries_desc.

Definition get_library_items_desc (library_id : pyval) : M descriptor :=
  ret (PStr ("library/" ++ py_str library_id ++ "/media"), PNone).
Definition get_library_items (library_id : pyval) : M pyval :=
  get_json (get_library_items_desc library_id).

Definition get_unmatched_library_items_desc (library_id : pyval)
  : M descriptor :=
  ret (PStr ("library/" ++ py_str library_id ++ "/unmatched"), PNone).
Definition get_unmatched_library_items (library_id : pyval) : M pyval :=
  get_json (get_unmatched_library_items_desc library_id).

Definition get_media_desc (media_id : pyval) : M descriptor :=
  ret (PStr ("media/" ++ py_str media_id), PNone).
Definition get_media (media_id : pyval) : M pyval :=
  get_json (get_media_desc media_id).

Definition get_media_files_desc (media_id : pyval) : M descriptor :=
  ret (PStr ("media/" ++ py_str media_id ++ "/files"), PNone).
Definition get_media_files (media_id : pyval) : M pyval :=
  get_json (get_media_files_desc media_id).

Definition update_media_desc (media_id : pyval)
  (kwargs : list (string * pyval)) : M descriptor :=
  ret (PStr ("media/" ++ py_str media_id), PDict [("data", PDict kwargs)]).
Definition update_media (media_id : pyval) (kwargs : list (string * pyval))
  : M bool :=
  patch_bool (update_media_desc media_id kwargs).

Definition delete_media_desc (media_id : pyval) : M descriptor :=
  ret (PStr ("media/" ++ py_str media_id), PNone).
Definition delete_media (media_id : pyval) : M bool :=
  delete_bool (delete_media_desc media_id).

Definition map_progress_desc (media_id : pyval) : M descriptor :=
  ret (PStr ("media/" ++ py_str media_id ++ "/progress"), PNone).
Definition map_progress (media_id : pyval) : M bool :=
  post_bool (map_progress_desc media_id).

Definition get_media_file_info_desc (media_id : pyval) : M descriptor :=
  ret (PStr ("mediafile/" ++ py_str media_id), PNone).
Definition get_media_file_info (media_id : pyval) : M pyval :=
  get_json (get_media_file_info_desc media_id).

Definition media_types : list string := ["movie"; "tv"].

Definition rematch_media_file_desc (media_id tmdb_id media_type : pyval)
  : M descriptor :=
  if _is_invalid_choice media_type "media_type" media_types
  then raise (Exception "Invalid media type")
  else ret (PStr ("mediafile/" ++ py_str media_id ++ "/match"),
            PDict [("tmdb_id", tmdb_id); ("media_type", media_type)]).
Definition rematch_media_file (media_id tmdb_id media_type : pyval)
  : M bool :=
  patch_bool (rematch_media_file_desc media_id tmdb_id media_type).

Definition get_library_desc (library_id : pyval) : M descriptor :=
  ret (PStr ("library/" ++ py_str library_id ++ "/media"), PNone).
Definition get_library (library_id : pyval) : M pyval :=
  get_json (get_library_desc library_id).

Definition add_library (paths name media_type : pyval) : M bool :=
  if _is_invalid_choice media_type "media_type" media_types
  then raise (Exception "Invalid media type")
  else
    response <- _post (PStr "library") PNone
                  [("json", PDict [("locations", paths); ("name", name);
                                   ("media_type", media_type)])] ;;
    if ok response then ret true else ret false.

Definition delete_library_desc (library_id : pyval) : M descriptor :=
  ret (PStr ("library/" ++ py_str library_id), PNone).
Definition delete_library (library_id : pyval) : M bool :=
  delete_bool (delete_library_desc library_id).

Definition settings_desc : M descriptor := ret (PStr "user/settings", PNone).
Definition settings : M pyval := get_json settings_desc.

Definition who_am_i_desc : M descriptor := ret (PStr "auth/whoami", PNone).
Definition who_am_i : M pyval := get_json who_am_i_desc.

Definition banner_desc : M descriptor := ret (PStr "dashboard/banner", PNone).
Definition banner : M pyval := get_json banner_desc.

Definition dashboard_desc : M descriptor := ret (PStr "dashboard", PNone).
Definition dashboard : M pyval := get_json dashboard_desc.

Definition tmdb_search_desc (query media_type year : pyval) : M descriptor :=
  if _is_invalid_choice media_type "media_type" media_types
  then raise (Exception "Invalid media type")
  else
    let params := build_optional_params
                    [("query", query); ("media_type", media_type);
                     ("year", year)] in
    ret (PStr "tmdb_search", params).
Definition tmdb_search (query media_type year : pyval) : M pyval :=
  get_json (tmdb_search_desc query media_type year).

Definition search_desc (query : pyval) : M descriptor :=
  ret (PStr "search", PDict [("query", query)]).
Definition search (query : pyval) : M pyval := get_json (search_desc query).

Definition file_browser_desc (path : pyval) : M descriptor :=
  if truthy path then ret (PStr ("filebrowser/" ++ py_str path), PNone)
  else ret (PStr "filebrowser", PNone).
(** A property: it is read without arguments, so [path] is its default. *)
Definition file_browser : M pyval := get_json (file_browser_desc PNone).

Definition get_tv_season_desc (tv_id season_number : pyval) : M descriptor :=
  ret (PStr ("tv/" ++ py_str tv_id ++ "/season/" ++ py_str season_number),
       PNone).
Definition get_tv_season (tv_id season_number : pyval) : M pyval :=
  get_json (get_tv_season_desc tv_id season_number).

Definition delete_tv_season_desc (tv_id season_number : pyval)
  : M descriptor :=
  ret (PStr ("tv/" ++ py_str tv_id ++ "/season/" ++ py_str season_number),
       PNone).
Definition delete_tv_season (tv_id season_number : pyval) : M bool :=
  delete_bool (delete_tv_season_desc tv_id season_number).

Definition get_tv_episode_desc (episode_id : pyval) : M descriptor :=
  ret (PStr ("episode/" ++ py_str episode_id), PNone).
Definition get_tv_episode (episode_id : pyval) : M pyval :=
  get_json (get_tv_episode_desc episode_id).

Definition delete_tv_episode_desc (episode_id : pyval) : M descriptor :=
  ret (PStr ("episode/" ++ py_str episode_id), PNone).
Definition delete_tv_episode (episode_id : pyval) : M bool :=
  delete_bool (delete_tv_episode_desc episode_id).

Definition get_virtual_manifest_desc (stream_id manifest_guid : pyval)
  : M descriptor :=
  let params := build_optional_params [("manifest_guid", manifest_guid)] in
  ret (PStr ("stream/" ++ py_str stream_id ++ "/manifest"), params).
Definition get_virtual_manifest (stream_id manifest_guid : pyval) : M pyval :=
  get_json (get_virtual_manifest_desc stream_id manifest_guid).

(** [Optional[str]]: the text, or [None]. *)
Definition get_manifest (stream_id start_num should_kill includes : pyval)
  : M (option string) :=
  let includes := int_list_to_string includes in
  let params := build_optional_params
                  [("start_num", start_num); ("should_kill", should_kill);
                   ("includes", includes)] in
  res <- _get (PStr ("stream/" ++ py_str stream_id ++ "/manifest.mpd"))
           params ;;
  if ok res then ret (Some (text res)) else ret None.

End Endpoints.

(* ================================================================== *)
(** ** Vocabulary for the statements *)

Section Vocabulary.

Context `{RT : Runtime}.

(** The request a primitive hands to the session when called on [self]. *)
Definition request_of (v : verb) (self : Client) (command params : pyval)
  (kwargs : list (string * pyval)) : Request :=
  mkRequest v
    (_url self ++ "/" ++ py_str command)
    (if truthy params then params else PDict [])
    (if truthy (_token self) then [("Authorization", py_str (_token self))]
     else [])
    (match v with GET => [] | _ => kwargs end).

(** [self] once the session has sent [rq]: only the trace grows. *)
Definition after_send (rq : Request) (self : Client) : Client :=
  mkClient (_url self) (_token self) (sent self ++ [rq])%list.

(** A caller's use of a primitive, and a caller making such calls one
    after another, whatever they answer. *)
Record call : Type := mkCall {
  c_verb : verb;
  c_command : pyval;
  c_params : pyval;
  c_kwargs : list (string * pyval)
}.

Fixpoint run_calls (cs : list call) (self : Client) : Client :=
  match cs with
  | [] => self
  | c :: cs' =>
      run_calls cs'
        (snd (primitive (c_verb c) (c_command c) (c_params c) (c_kwargs c)
                self))
  end.

Definition call_request (self : Client) (c : call) : Request :=
  request_of (c_verb c) self (c_command c) (c_params c) (c_kwargs c).

(** The [auth/login] request of [_authenticate]. *)
Definition login_request (self : Client) (username password : pyval)
  : Request :=
  request_of POST self (PStr "auth/login") PNone
    (login_body username password).

(** The object as [__init__] has it just before it authenticates. *)
Definition fresh (base_url : string) (self : Client) : Client :=
  mkClient (api_url base_url) PNone (sent self).

End Vocabulary.

(** The boolean-returning endpoint methods, as calls with their arguments. *)
Inductive bool_call : Type :=
| UpdateMedia (media_id : pyval) (kwargs : list (string * pyval))
| DeleteMedia (media_id : pyval)
| MapProgress (media_id : pyval)
| RematchMediaFile (media_id tmdb_id media_type : pyval)
| AddLibrary (paths name media_type : pyval)
| DeleteLibrary (library_id : pyval)
| DeleteTvSeason (tv_id season_number : pyval)
| DeleteTvEpisode (episode_id : pyval).

Section Calls.

Context `{RT : Runtime} `{HP : Helpers}.

Definition run_bool_call (c : bool_call) : M bool :=
  match c with
  | UpdateMedia media_id kwargs => update_media media_id kwargs
  | DeleteMedia media_id => delete_media media_id
  | MapProgress media_id => map_progress media_id
  | RematchMediaFile media_id tmdb_id media_type =>
      rematch_media_file media_id tmdb_id media_type
  | AddLibrary paths name media_type => add_library paths name media_type
  | DeleteLibrary library_id => delete_library library_id
  | DeleteTvSeason tv_id season_number =>
      delete_tv_season tv_id season_number
  | DeleteTvEpisode episode_id => delete_tv_episode episode_id
  end.

(** The verb, path, query parameters and keyword arguments of the one
    request the call is expected to make. *)
Definition bool_call_request (c : bool_call) (self : Client) : Request :=
  match c with
  | UpdateMedia media_id kwargs =>
      request_of PATCH self (PStr ("media/" ++ py_str media_id))
        (PDict [("data", PDict kwargs)]) []
  | DeleteMedia media_id =>
      request_of DELETE self (PStr ("media/" ++ py_str media_id)) PNone []
  | MapProgress media_id =>
      request_of POST self (PStr ("media/" ++ py_str media_id ++ "/progress"))
        PNone []
  | RematchMediaFile media_id tmdb_id media_type =>
      request_of PATCH self
        (PStr ("mediafile/" ++ py_str media_id ++ "/match"))
        (PDict [("tmdb_id", tmdb_id); ("media_type", media_type)]) []
  | AddLibrary paths name media_type =>
      request_of POST self (PStr "library") PNone
        [("json", PDict [("locations", paths); ("name", name);
                         ("media_type", media_type)])]
  | DeleteLibrary library_id =>
      request_of DELETE self (PStr ("library/" ++ py_str library_id)) PNone []
  | DeleteTvSeason tv_id season_number =>
      request_of DELETE self
        (PStr ("tv/" ++ py_str tv_id ++ "/season/" ++ py_str season_number))
        PNone []
  | DeleteTvEpisode episode_id =>
      request_of DELETE self (PStr ("episode/" ++ py_str episode_id)) PNone []
  end.

(** The media type of the call, when it has one. *)
Definition bool_call_media_type (c : bool_call) : option pyval :=
  match c with
  | RematchMediaFile _ _ media_type => Some media_type
  | AddLibrary _ _ media_type => Some media_type
  | _ => None
  end.

End Calls.

(** [media_type in ['movie', 'tv']]. *)
Definition allowed_media_type (media_type : pyval) : Prop :=
  media_type = PStr "movie" \/ media_type = PStr "tv".

(* ================================================================== *)
(** ** Sample servers *)

(** A server that answers every request with [r]. *)
Definition always (r : Response) : Runtime :=
  {| send := fun _ => Ok r; repr_other := fun _ => "" |}.

(** Parameters without the [None] entries, and a list joined as it is. *)
Definition sample_helpers : Helpers :=
  {| build_optional_params :=
       fun kv =>
         PDict (filter (fun p => match snd p with PNone => false | _ => true end)
                  kv);
     int_list_to_string := fun v => v |}.

Definition granted : Response :=
  mkResponse 200 "{token: abc}" (Ok (PDict [("token", PStr "abc")])).

Definition denied : Response :=
  mkResponse 401 "Unauthorized" (Raise JSONDecodeError).

Definition tokenless : Response :=
  mkResponse 200 "{foo: 1}" (Ok (PDict [("foo", PInt 1)])).

Definition bare : Response := mkResponse 200 "{}" (Ok (PDict [])).

Definition empty_token : Response :=
  mkResponse 200 "{token: }" (Ok (PDict [("token", PStr "")])).

Definition enveloped : Response :=
  mkResponse 200 "{data: [1, 2, 3]}"
    (Ok (PDict [("data", PList [PInt 1; PInt 2; PInt 3])])).



Definition manifest : Response :=
  mkResponse 200 "<MPD/>" (Raise JSONDecodeError).

(** The client that [API("http://host/", "user", "secret")] constructs
    when the login is granted. *)
Definition logged_in : Client :=
  mkClient "http://host/api/v1" (PStr "abc")
    [mkRequest POST "http://host/api/v1/auth/login" (PDict []) []
       [("json", PDict [("username", PStr "user");
                        ("password", PStr "secret")])]].

(** A client of [http://host/] holding the token [abc]. *)
Definition alice : Client := mkClient "http://host/api/v1" (PStr "abc") [].

(* ================================================================== *)
(** ** The whole endpoint surface, as calls *)

(** The JSON-returning endpoint methods, as calls with their arguments. *)
Inductive json_call : Type :=
| Libraries
| GetLibraryItems (library_id : pyval)
| GetUnmatchedLibraryItems (library_id : pyval)
| GetMedia (media_id : pyval)
| GetMediaFiles (media_id : pyval)
| GetMediaFileInfo (media_id : pyval)
| GetLibrary (library_id : pyval)
| Settings
| WhoAmI
| Banner
| Dashboard
| TmdbSearch (query media_type year : pyval)
| Search (query : pyval)
| FileBrowser
| GetTvSeason (tv_id season_number : pyval)
| GetTvEpisode (episode_id : pyval)
| GetVirtualManifest (stream_id manifest_guid : pyval).

(** Any public method of [API]. *)
Inductive api_call : Type :=
| BoolCall (c : bool_call)
| JsonCall (c : json_call)
| GetManifest (stream_id start_num should_kill includes : pyval).

Section Surface.

Context `{RT : Runtime} `{HP : Helpers}.

Definition run_json_call (c : json_call) : M pyval :=
  match c with
  | Libraries => libraries
  | GetLibraryItems library_id => get_library_items library_id
  | GetUnmatchedLibraryItems library_id =>
      get_unmatched_library_items library_id
  | GetMedia media_id => get_media media_id
  | GetMediaFiles media_id => get_media_files media_id
  | GetMediaFileInfo media_id => get_media_file_info media_id
  | GetLibrary library_id => get_library library_id
  | Settings => settings
  | WhoAmI => who_am_i
  | Banner => banner
  | Dashboard => dashboard
  | TmdbSearch query media_type year => tmdb_search query media_type year
  | Search query => search query
  | FileBrowser => file_browser
  | GetTvSeason tv_id season_number => get_tv_season tv_id season_number
  | GetTvEpisode episode_id => get_tv_episode episode_id
  | GetVirtualManifest stream_id manifest_guid =>
      get_virtual_manifest stream_id manifest_guid
  end.

(** The path and the query parameters the call is expected to use. *)
Definition json_call_path (c : json_call) : string :=
  match c with
  | Libraries => "library"
  | GetLibraryItems library_id => "library/" ++ py_str library_id ++ "/media"
  | GetUnmatchedLibraryItems library_id =>
      "library/" ++ py_str library_id ++ "/unmatched"
  | GetMedia media_id => "media/" ++ py_str media_id
  | GetMediaFiles media_id => "media/" ++ py_str media_id ++ "/files"
  | GetMediaFileInfo media_id => "mediafile/" ++ py_str media_id
  | GetLibrary library_id => "library/" ++ py_str library_id ++ "/media"
  | Settings => "user/settings"
  | WhoAmI => "auth/whoami"
  | Banner => "dashboard/banner"
  | Dashboard => "dashboard"
  | TmdbSearch _ _ _ => "tmdb_search"
  | Search _ => "search"
  | FileBrowser => "filebrowser"
  | GetTvSeason tv_id season_number =>
      "tv/" ++ py_str tv_id ++ "/season/" ++ py_str season_number
  | GetTvEpisode episode_id => "episode/" ++ py_str episode_id
  | GetVirtualManifest stream_id _ =>
      "stream/" ++ py_str stream_id ++ "/manifest"
  end.

Definition json_call_params (c : json_call) : pyval :=
  match c with
  | TmdbSearch query media_type year =>
      build_optional_params
        [("query", query); ("media_type", media_type); ("year", year)]
  | Search query => PDict [("query", query)]
  | GetVirtualManifest _ manifest_guid =>
      build_optional_params [("manifest_guid", manifest_guid)]
  | _ => PNone
  end.

Definition json_call_media_type (c : json_call) : option pyval :=
  match c with
  | TmdbSearch _ media_type _ => Some media_type
  | _ => None
  end.

Definition json_call_request (c : json_call) (self : Client) : Request :=
  request_of GET self (PStr (json_call_path c)) (json_call_params c) [].

(** The client after a call, whatever the call returned or raised. *)
Definition after_call (c : api_call) (self : Client) : Client :=
  match c with
  | BoolCall b => snd (run_bool_call b self)
  | JsonCall j => snd (run_json_call j self)
  | GetManifest stream_id start_num should_kill includes =>
      snd (get_manifest stream_id start_num should_kill includes self)
  end.

Fixpoint after_calls (cs : list api_call) (self : Client) : Client :=
  match cs with
  | [] => self
  | c :: cs' => after_calls cs' (after_call c self)
  end.

End Surface.

(** A session that cannot reach the server. *)
Definition unreachable : Runtime :=
  {| send := fun _ => Raise ConnectionError; repr_other := fun _ => "" |}.

Definition listing : Response :=
  mkResponse 200 "[1]" (Ok (PList [PInt 1])).

(* ================================================================== *)
(** ** Running the monad *)

Section MonadFacts.

Lemma bind_ok {A B} (m : M A) (k : A -> M B) self a self' :
  m self = (Ok a, self') -> bind m k self = k a self'.
Proof. intros E. unfold bind. now rewrite E. Qed.

Lemma bind_raise {A B} (m : M A) (k : A -> M B) self e self' :
  m self = (Raise e, self') -> bind m k self = (Raise e, self').
Proof. intros E. unfold bind. now rewrite E. Qed.

(** A bind that returns went through its first half. *)
Lemma bind_inv_ok {A B} (m : M A) (k : A -> M B) self b self2 :
  bind m k self = (Ok b, self2) ->
  exists a self1, m self = (Ok a, self1) /\ k a self1 = (Ok b, self2).
Proof.
  unfold bind. destruct (m self) as [[a | e] self1]; intros E.
  - now exists a, self1.
  - discriminate E.
Qed.

End MonadFacts.

Ltac step_bind E := first [ rewrite (bind_ok _ _ _ _ _ E)
                          | rewrite (bind_raise _ _ _ _ _ E) ].

(* ================================================================== *)
(** ** Strings *)

Section StringFacts.

Lemma endswith_slash_app (s : string) : endswith_slash (s ++ "/") = true.
Proof.
  induction s as [| c s IH]; [reflexivity |].
  simpl. destruct (s ++ "/") eqn:E.
  - destruct s; discriminate E.
  - exact IH.
Qed.

Lemma drop_last_app (s : string) : drop_last (s ++ "/") = s.
Proof.
  induction s as [| c s IH]; [reflexivity |].
  simpl. destruct (s ++ "/") eqn:E.
  - destruct s; discriminate E.
  - now rewrite IH.
Qed.

Lemma app_assoc_string (a b c : string) : (a ++ b) ++ c = a ++ (b ++ c).
Proof. induction a as [| x a IH]; simpl; [reflexivity | now rewrite IH]. Qed.

Lemma api_url_slash (s : string) : api_url (s ++ "/") = s ++ "/api/v1".
Proof. unfold api_url. now rewrite endswith_slash_app, drop_last_app. Qed.

Lemma api_url_plain (s : string) :
  endswith_slash s = false -> api_url s = s ++ "/api/v1".
Proof. intros E. unfold api_url. now rewrite E. Qed.

Example api_url_host : api_url "http://host/" = "http://host/api/v1".
Proof. reflexivity. Qed.

Example api_url_no_slash : api_url "http://host" = "http://host/api/v1".
Proof. reflexivity. Qed.

Example api_url_two_slashes :
  api_url "http://host//" = "http://host//api/v1".
Proof. reflexivity. Qed.

Example str_of_int_negative : str_of_int (-42) = "-42".
Proof. reflexivity. Qed.

End StringFacts.

(* ================================================================== *)
(** ** The transport core *)

Section TransportFacts.

Context `{RT : Runtime}.

(** Every primitive builds one request, hands it to the session, and
    returns whatever the session answers. *)
Lemma primitive_sends v command params kwargs self :
  primitive v command params kwargs self =
    (send (request_of v self command params kwargs),
     after_send (request_of v self command params kwargs) self).
Proof.
  destruct v;
    unfold primitive, _get, _post, _patch, _delete, request_of, after_send,
      session;
    destruct (truthy params); reflexivity.
Qed.

Lemma primitive_json_unfold v command params kwargs :
  primitive_json v command params kwargs =
    bind (primitive v command params kwargs)
      (fun response =>
         if ok response then lift (json response)
         else ret static.empty_dict).
Proof. destruct v; reflexivity. Qed.


End TransportFacts.

(* ================================================================== *)
(** ** Requests, headers and URLs *)

Section RequestFacts.

Context `{RT : Runtime}.

Lemma py_str_PStr (t : string) : py_str (PStr t) = t.
Proof. reflexivity. Qed.

(** What [_authenticate] does, read off the answer to its one request. *)
Lemma _authenticate_unfold username password self :
  _authenticate username password self =
    let rq := login_request self username password in
    match send rq with
    | Raise e => (Raise e, after_send rq self)
    | Ok r =>
        if ok r then
          match json r with
          | Raise e => (Raise e, after_send rq self)
          | Ok body =>
              if truthy body then
                match getitem body "token" with
                | Raise e => (Raise e, after_send rq self)
                | Ok token =>
                    (Ok true,
                     mkClient (_url self) token (sent self ++ [rq])%list)
                end
              else (Ok false, after_send rq self)
          end
        else (Ok false, after_send rq self)
    end.
Proof.
  unfold _authenticate, _post_json, login_request.
  pose proof (primitive_sends POST (PStr "auth/login") PNone
                (login_body username password) self) as E.
  cbn [primitive] in E. cbv zeta.
  destruct (send _) as [r | e]; unfold bind; rewrite E; [| reflexivity].
  destruct (ok r); [| reflexivity].
  unfold lift at 1. destruct (json r) as [body | e]; [| reflexivity].
  destruct (truthy body); [| reflexivity].
  unfold lift. destruct (getitem body "token"); reflexivity.
Qed.

Lemma __init___unfold base_url username password self :
  __init__ base_url username password self =
    match _authenticate username password (fresh base_url self) with
    | (Ok true, c) => (Ok tt, c)
    | (Ok false, c) => (Raise (Exception "Authentication failed"), c)
    | (Raise e, c) => (Raise e, c)
    end.
Proof.
  unfold __init__, fresh, bind.
  destruct (_authenticate _ _ _) as [[[|] | e] c]; reflexivity.
Qed.

(** [_authenticate] sends exactly its login request and never touches
    [_url]. *)
Lemma _authenticate_frame username password self :
  let out := snd (_authenticate username password self) in
  _url out = _url self /\
  sent out = (sent self ++ [login_request self username password])%list.
Proof.
  rewrite _authenticate_unfold. cbv zeta.
  destruct (send _) as [r | e]; [| now split].
  destruct (ok r); [| now split].
  destruct (json r) as [body | e]; [| now split].
  destruct (truthy body); [| now split].
  destruct (getitem body "token"); now split.
Qed.

Lemma Forall2_map_r {A B} (R : A -> B -> Prop) (f : A -> B) (l : list A) :
  (forall a, R a (f a)) -> Forall2 R l (map f l).
Proof.
  intros HR. induction l as [| a l IH]; cbn; constructor; [apply HR | exact IH].
Qed.

(** A run of calls sends one request per call, in order, and leaves [_url]
    and [_token] alone. *)
Lemma run_calls_sent cs : forall self,
  _url (run_calls cs self) = _url self /\
  _token (run_calls cs self) = _token self /\
  sent (run_calls cs self) = (sent self ++ map (call_request self) cs)%list.
Proof.
  induction cs as [| c cs IH]; intros self; cbn [run_calls map].
  - now rewrite app_nil_r.
  - rewrite primitive_sends. cbn [snd].
    destruct (IH (after_send (call_request self c) self)) as (U & T & S).
    fold (call_request self c). rewrite U, T, S. repeat split.
    unfold after_send at 1. cbn [sent]. rewrite <- app_assoc.
    reflexivity.
Qed.

(** C3, as the code has it.  Every primitive ([_get], [_post], [_patch],
    [_delete]) sends exactly one request of its verb and returns the
    session's answer.  When the stored token is truthy the request carries
    the single header [Authorization] whose value is the token as formatted
    by an f-string (the token itself when it is a string, see
    [py_str_PStr]), with nothing put in front; when the token is [None] or
    otherwise falsy the request is sent all the same, with no header.  The
    same holds for every request of any run of calls on the client. *)
Theorem authorization_header v command params kwargs self :
  let expected :=
    if truthy (_token self)
    then [("Authorization", py_str (_token self))]
    else [] in
  (exists rq,
     primitive v command params kwargs self = (send rq, after_send rq self) /\
     sent (after_send rq self) = (sent self ++ [rq])%list /\
     _token (after_send rq self) = _token self /\
     req_verb rq = v /\
     req_headers rq = expected) /\
  (forall cs, exists rqs,
     sent (run_calls cs self) = (sent self ++ rqs)%list /\
     Forall2 (fun c rq => req_verb rq = c_verb c /\ req_headers rq = expected)
       cs rqs).
Proof.
  intros expected. split.
  - exists (request_of v self command params kwargs).
    split; [apply primitive_sends |]. repeat split.
  - intros cs. exists (map (call_request self) cs).
    split; [apply run_calls_sent |].
    apply Forall2_map_r. intros c. now split.
Qed.

(** C8. Constructing a client on [s ++ "/"] stores [s ++ "/api/v1"]: one
    slash is removed, whatever [s] ends with, and the suffix is appended
    once.  The login request goes to [s ++ "/api/v1/auth/login"], and every
    primitive called on the constructed client, in any run of calls, sends
    its request to [s ++ "/api/v1/" ++ command]. *)
Theorem url_construction s username password self0 c :
  __init__ (s ++ "/") username password self0 = (Ok tt, c) ->
  _url c = s ++ "/api/v1" /\
  (exists login, sent c = (sent self0 ++ [login])%list /\
     req_url login = s ++ "/api/v1/auth/login") /\
  (forall v command params kwargs, exists rq,
     primitive v command params kwargs c = (send rq, after_send rq c) /\
     req_url rq = s ++ "/api/v1/" ++ py_str command) /\
  (forall cs, exists rqs,
     sent (run_calls cs c) = (sent c ++ rqs)%list /\
     Forall2 (fun k rq => req_url rq = s ++ "/api/v1/" ++ py_str (c_command k))
       cs rqs).
Proof.
  intros E.
  pose proof (_authenticate_frame username password (fresh (s ++ "/") self0))
    as [Hu Hs].
  rewrite __init___unfold in E.
  destruct (_authenticate _ _ _) as [[[|] | e] c'] eqn:A; inversion E; subst c'.
  cbn [snd] in Hu, Hs. unfold fresh in Hu, Hs at 1. cbn [_url sent] in Hu, Hs.
  rewrite api_url_slash in Hu.
  assert (forall v command params kwargs,
            req_url (request_of v c command params kwargs) =
              s ++ "/api/v1/" ++ py_str command) as R.
  { intros. cbn. rewrite Hu. now rewrite app_assoc_string. }
  split; [exact Hu |]. split; [| split].
  - eexists. split; [exact Hs |].
    cbn. rewrite api_url_slash. now rewrite app_assoc_string.
  - intros v command params kwargs.
    exists (request_of v c command params kwargs).
    split; [apply primitive_sends | apply R].
  - intros cs. exists (map (call_request c) cs).
    split; [apply run_calls_sent |].
    apply Forall2_map_r. intros k. apply R.
Qed.

End RequestFacts.

(* ================================================================== *)
(** ** Authentication and construction *)

Section AuthFacts.

Context `{RT : Runtime}.

(** C2, as the code has it.  [_authenticate] posts the credentials to
    [auth/login].  It returns false, leaving the token unset, when the
    response is falsy and also when the response is truthy but its decoded
    body is falsy; construction then raises "Authentication failed".  When
    the response is truthy and its body is a mapping with a [token] key, it
    stores that field as the token and returns true, and construction
    succeeds.  Construction succeeds exactly when [_authenticate] returns
    true, so a constructed client holds the [token] field of the login
    body. *)
Theorem authentication base_url username password self0 r :
  let self := fresh base_url self0 in
  let rq := login_request self username password in
  send rq = Ok r ->
  (req_verb rq = POST /\
   req_url rq = api_url base_url ++ "/auth/login" /\
   req_kwargs rq =
     [("json", PDict [("username", username); ("password", password)])]) /\
  (ok r = false \/ (exists body, json r = Ok body /\ truthy body = false) ->
   _authenticate username password self = (Ok false, after_send rq self) /\
   _token (after_send rq self) = PNone /\
   __init__ base_url username password self0 =
     (Raise (Exception "Authentication failed"), after_send rq self)) /\
  (forall d token,
     ok r = true -> json r = Ok (PDict d) -> lookup "token" d = Some token ->
     let c := mkClient (_url self) token (sent self ++ [rq])%list in
     _authenticate username password self = (Ok true, c) /\
     __init__ base_url username password self0 = (Ok tt, c)) /\
  (forall c,
     __init__ base_url username password self0 = (Ok tt, c) <->
     _authenticate username password self = (Ok true, c)) /\
  (forall c,
     _authenticate username password self = (Ok false, c) ->
     __init__ base_url username password self0 =
       (Raise (Exception "Authentication failed"), c)) /\
  (forall c,
     __init__ base_url username password self0 = (Ok tt, c) ->
     exists d, ok r = true /\ json r = Ok (PDict d) /\
               lookup "token" d = Some (_token c)).
Proof.
  intros self rq S.
  assert (I := __init___unfold base_url username password self0).
  assert (A := _authenticate_unfold username password self).
  fold self in I. cbv zeta in A. fold rq in A. rewrite S in A.
  split; [repeat split |]. split; [| split; [| split; [| split]]].
  - intros [F | [body [J F]]].
    + rewrite F in A. rewrite I, A. now repeat split.
    + destruct (ok r).
      * rewrite J, F in A. rewrite I, A. now repeat split.
      * rewrite I, A. now repeat split.
  - intros d token T J L c.
    rewrite T, J in A. cbn [getitem] in A. rewrite L in A.
    assert (truthy (PDict d) = true) as Tr
      by (destruct d; [discriminate L | reflexivity]).
    rewrite Tr in A. rewrite I, A. now split.
  - intros c. rewrite I.
    destruct (_authenticate username password self) as [[[|] | e] c'];
      split; intros E; inversion E; reflexivity.
  - intros c E. rewrite I. now rewrite E.
  - intros c E. rewrite I, A in E.
    destruct (ok r); [| discriminate E].
    destruct (json r) as [body | e]; [| discriminate E].
    destruct (truthy body); [| discriminate E].
    destruct body as [| | | | | | d]; try discriminate E.
    cbn [getitem] in E. destruct (lookup "token" d) as [t |] eqn:L;
      [| discriminate E].
    inversion E. exists d. now repeat split.
Qed.

(** C10. [_authenticate] returns false only when what [_post_json] gave
    back (the decoded login body, or the empty mapping of a falsy response)
    is falsy.  When the login request gets a truthy response whose decoded
    body is a non-empty mapping without a [token] key, [_authenticate]
    raises [KeyError] on [token], and construction fails with that
    [KeyError]: it neither sees false nor raises "Authentication failed". *)
Theorem missing_token_key base_url username password self0 :
  let self := fresh base_url self0 in
  let rq := login_request self username password in
  (forall c,
     _authenticate username password self = (Ok false, c) ->
     exists body,
       _post_json (PStr "auth/login") PNone (login_body username password)
         self = (Ok body, c) /\
       truthy body = false) /\
  (forall r d,
     send rq = Ok r -> ok r = true -> json r = Ok (PDict d) ->
     d <> [] -> lookup "token" d = None ->
     _authenticate username password self =
       (Raise (KeyError "token"), after_send rq self) /\
     __init__ base_url username password self0 =
       (Raise (KeyError "token"), after_send rq self)).
Proof.
  intros self rq. split.
  - intros c E. unfold _authenticate in E.
    apply bind_inv_ok in E as (body & self1 & P & K).
    exists body. destruct (truthy body) eqn:T.
    + exfalso. unfold bind, lift, set_token, ret in K.
      destruct (getitem body "token"); discriminate K.
    + unfold ret in K. inversion K. subst self1. now split.
  - intros r d S T J N L.
    assert (A := _authenticate_unfold username password self).
    cbv zeta in A. fold rq in A. rewrite S, T, J in A.
    cbn [getitem] in A. rewrite L in A.
    assert (truthy (PDict d) = true) as Tr
      by (destruct d; [contradiction | reflexivity]).
    rewrite Tr in A. split; [exact A |].
    rewrite __init___unfold. fold self. now rewrite A.
Qed.

End AuthFacts.

(* ================================================================== *)
(** ** The shaping wrappers *)

Section WrapperFacts.

Context `{RT : Runtime}.

Lemma json_wrapper_unfold v func :
  json_wrapper v func =
    bind func (fun d =>
      match d with
      | (command, params) =>
          if negb (truthy command) then ret (PDict [])
          else bind (primitive_json v command params [])
                 (fun json_data => ret (_get_response_data json_data))
      end).
Proof. destruct v; reflexivity. Qed.

Lemma bool_wrapper_unfold w func :
  bool_wrapper w func =
    bind func (fun d =>
      match d with
      | (command, params) =>
          if negb (truthy command) then ret false
          else bind (primitive (verb_of w) command params [])
                 (fun res => ret (ok res))
      end).
Proof. destruct w; reflexivity. Qed.

(** A boolean wrapper around a method that computed a truthy path. *)
Lemma bool_wrapper_sends w func self command params self' :
  func self = (Ok (command, params), self') ->
  truthy command = true ->
  let rq := request_of (verb_of w) self' command params [] in
  bool_wrapper w func self =
    (match send rq with
     | Ok r => Ok (ok r)
     | Raise e => Raise e
     end, after_send rq self').
Proof.
  intros F T rq. rewrite bool_wrapper_unfold. step_bind F. rewrite T.
  cbn [negb]. pose proof (primitive_sends (verb_of w) command params [] self')
    as P.
  fold rq in P. unfold bind. rewrite P. now destruct (send rq).
Qed.

(** A JSON wrapper around a method that computed a truthy path. *)
Lemma json_wrapper_sends v func self command params self' :
  func self = (Ok (command, params), self') ->
  truthy command = true ->
  let rq := request_of v self' command params [] in
  json_wrapper v func self =
    (match send rq with
     | Ok r =>
         if ok r then
           match json r with
           | Ok body => Ok (_get_response_data body)
           | Raise e => Raise e
           end
         else Ok (_get_response_data static.empty_dict)
     | Raise e => Raise e
     end, after_send rq self').
Proof.
  intros F T rq. rewrite json_wrapper_unfold. step_bind F. rewrite T.
  cbn [negb]. pose proof (primitive_sends v command params [] self') as P.
  fold rq in P. rewrite primitive_json_unfold.
  unfold bind at 1. unfold bind. rewrite P.
  destruct (send rq) as [r | e]; [| reflexivity].
  destruct (ok r); [| reflexivity].
  unfold lift. destruct (json r); reflexivity.
Qed.

(** C7. When the wrapped method computes a falsy path, no wrapper reaches
    a primitive: the client is left as the method left it, so nothing is
    sent, and the result is the empty mapping for [get_json], [post_json],
    [patch_json] and [delete_json], and false for [post_bool],
    [patch_bool] and [delete_bool]. *)
Theorem empty_path_skips_call func self command params self' :
  func self = (Ok (command, params), self') ->
  truthy command = false ->
  (forall v, json_wrapper v func self = (Ok (PDict []), self')) /\
  (forall w, bool_wrapper w func self = (Ok false, self')).
Proof.
  intros F T. split.
  - intros v. rewrite json_wrapper_unfold. step_bind F. now rewrite T.
  - intros w. rewrite bool_wrapper_unfold. step_bind F. now rewrite T.
Qed.

(** C4. The envelope normalization sends a body whose [data] key holds [X]
    to [X], any falsy body to the empty mapping, and every truthy body
    without a [data] key to itself, be it a mapping or not (a list of
    items, a string, a number); and every JSON wrapper returns the
    normalization of the body decoded from a truthy response. *)
Theorem envelope_normalization :
  (forall X, _get_response_data (PDict [("data", X)]) = X) /\
  _get_response_data (PDict [("data", PList [PInt 1; PInt 2; PInt 3])]) =
    PList [PInt 1; PInt 2; PInt 3] /\
  (forall body, truthy body = false -> _get_response_data body = PDict []) /\
  _get_response_data (PDict []) = PDict [] /\
  (forall d, d <> [] -> lookup "data" d = None ->
             _get_response_data (PDict d) = PDict d) /\
  _get_response_data (PDict [("foo", PInt 1)]) = PDict [("foo", PInt 1)] /\
  (forall body,
     truthy body = true ->
     (forall d, body = PDict d -> lookup "data" d = None) ->
     _get_response_data body = body) /\
  _get_response_data (PList [PDict [("id", PInt 1)]]) =
    PList [PDict [("id", PInt 1)]] /\
  (forall d X, lookup "data" d = Some X -> _get_response_data (PDict d) = X) /\
  (forall v func self command params self' r body,
     func self = (Ok (command, params), self') ->
     truthy command = true ->
     send (request_of v self' command params []) = Ok r ->
     ok r = true -> json r = Ok body ->
     json_wrapper v func self =
       (Ok (_get_response_data body),
        after_send (request_of v self' command params []) self')).
Proof.
  repeat split.
  - intros body T. unfold _get_response_data. now rewrite T.
  - intros d N L. unfold _get_response_data.
    destruct d; [contradiction |]. cbn [truthy negb]. now rewrite L.
  - intros body T N. unfold _get_response_data. rewrite T. cbn [negb].
    destruct body; try reflexivity. now rewrite (N d eq_refl).
  - intros d X L. unfold _get_response_data.
    destruct d; [discriminate L |]. cbn [truthy negb]. now rewrite L.
  - intros v func self command params self' r body F T S O J.
    rewrite (json_wrapper_sends v func self command params self' F T).
    cbv zeta. now rewrite S, O, J.
Qed.

End WrapperFacts.

(* ================================================================== *)
(** ** The endpoint methods *)

Section EndpointFacts.

Context `{RT : Runtime} `{HP : Helpers}.

Lemma invalid_choice_false media_type :
  allowed_media_type media_type ->
  _is_invalid_choice media_type "media_type" media_types = false.
Proof. intros [E | E]; subst media_type; reflexivity. Qed.

Lemma invalid_choice_true media_type :
  ~ allowed_media_type media_type ->
  _is_invalid_choice media_type "media_type" media_types = true.
Proof.
  intros N. destruct media_type as [| | | | s | |]; try reflexivity.
  cbn. destruct (String.eqb_spec s "movie") as [E | _].
  - exfalso. apply N. left. now rewrite E.
  - destruct (String.eqb_spec s "tv") as [E | _]; [| reflexivity].
    exfalso. apply N. right. now rewrite E.
Qed.

(** Through the boolean wrapper of [w], for a method that returns its
    path outright. *)
Ltac via_wrapper w :=
  etransitivity;
  [ apply (bool_wrapper_sends w); reflexivity | cbv zeta ].

Lemma add_library_sends paths name media_type self :
  allowed_media_type media_type ->
  let rq := bool_call_request (AddLibrary paths name media_type) self in
  add_library paths name media_type self =
    (match send rq with
     | Ok r => Ok (ok r)
     | Raise e => Raise e
     end, after_send rq self).
Proof.
  intros A rq. unfold add_library. rewrite (invalid_choice_false _ A).
  pose proof (primitive_sends POST (PStr "library") PNone
    [("json", PDict [("locations", paths); ("name", name);
                     ("media_type", media_type)])] self) as P.
  cbn [primitive] in P. unfold bind. rewrite P.
  subst rq. cbn [bool_call_request].
  destruct (send _) as [r | e]; [| reflexivity].
  now destruct (ok r).
Qed.

Lemma rematch_media_file_sends media_id tmdb_id media_type self :
  allowed_media_type media_type ->
  let rq := bool_call_request
              (RematchMediaFile media_id tmdb_id media_type) self in
  rematch_media_file media_id tmdb_id media_type self =
    (match send rq with
     | Ok r => Ok (ok r)
     | Raise e => Raise e
     end, after_send rq self).
Proof.
  intros A rq. unfold rematch_media_file.
  apply (bool_wrapper_sends WPATCH); [| reflexivity].
  unfold rematch_media_file_desc. now rewrite (invalid_choice_false _ A).
Qed.

Lemma tmdb_search_sends query media_type year self :
  allowed_media_type media_type ->
  let rq := request_of GET self (PStr "tmdb_search")
              (build_optional_params
                 [("query", query); ("media_type", media_type);
                  ("year", year)]) [] in
  snd (tmdb_search query media_type year self) = after_send rq self.
Proof.
  intros A rq.
  pose proof (json_wrapper_sends GET (tmdb_search_desc query media_type year)
                self (PStr "tmdb_search")
                (build_optional_params
                   [("query", query); ("media_type", media_type);
                    ("year", year)]) self) as E.
  cbn [json_wrapper] in E. unfold tmdb_search. rewrite E; [reflexivity | |].
  - unfold tmdb_search_desc. now rewrite (invalid_choice_false _ A).
  - reflexivity.
Qed.

(** C6. Each boolean-returning method ([update_media], [delete_media],
    [map_progress], [rematch_media_file], [add_library], [delete_library],
    [delete_tv_season], [delete_tv_episode]), called with an allowed media
    type where it takes one, sends the one request of its verb and path
    through the primitive and returns the response's [ok], whatever the
    body of the response is. *)
Theorem bool_call_returns_ok c self r :
  (forall media_type,
     bool_call_media_type c = Some media_type ->
     allowed_media_type media_type) ->
  send (bool_call_request c self) = Ok r ->
  run_bool_call c self = (Ok (ok r), after_send (bool_call_request c self) self).
Proof.
  intros A S.
  destruct c; cbn [run_bool_call];
    try (rewrite rematch_media_file_sends by (apply A; reflexivity));
    try (rewrite add_library_sends by (apply A; reflexivity));
    try (cbv zeta; now rewrite S).
  - unfold update_media. via_wrapper WPATCH.
    cbn [bool_call_request verb_of] in *. now rewrite S.
  - unfold delete_media. via_wrapper WDELETE.
    cbn [bool_call_request verb_of] in *. now rewrite S.
  - unfold map_progress. via_wrapper WPOST.
    cbn [bool_call_request verb_of] in *. now rewrite S.
  - unfold delete_library. via_wrapper WDELETE.
    cbn [bool_call_request verb_of] in *. now rewrite S.
  - unfold delete_tv_season. via_wrapper WDELETE.
    cbn [bool_call_request verb_of] in *. now rewrite S.
  - unfold delete_tv_episode. via_wrapper WDELETE.
    cbn [bool_call_request verb_of] in *. now rewrite S.
Qed.

(** C5. With a media type other than [movie] and [tv], [tmdb_search],
    [rematch_media_file] and [add_library] raise "Invalid media type" and
    leave the client as it was: nothing is sent.  With [movie] or [tv]
    each of them goes on to its primitive, which sends the request of the
    method. *)
Theorem media_type_validation media_type self :
  (~ allowed_media_type media_type ->
   (forall query year,
      tmdb_search query media_type year self =
        (Raise (Exception "Invalid media type"), self)) /\
   (forall media_id tmdb_id,
      rematch_media_file media_id tmdb_id media_type self =
        (Raise (Exception "Invalid media type"), self)) /\
   (forall paths name,
      add_library paths name media_type self =
        (Raise (Exception "Invalid media type"), self))) /\
  (allowed_media_type media_type ->
   (forall query year,
      snd (tmdb_search query media_type year self) =
        after_send
          (request_of GET self (PStr "tmdb_search")
             (build_optional_params
                [("query", query); ("media_type", media_type);
                 ("year", year)]) []) self) /\
   (forall media_id tmdb_id,
      snd (rematch_media_file media_id tmdb_id media_type self) =
        after_send
          (request_of PATCH self
             (PStr ("mediafile/" ++ py_str media_id ++ "/match"))
             (PDict [("tmdb_id", tmdb_id); ("media_type", media_type)]) [])
          self) /\
   (forall paths name,
      snd (add_library paths name media_type self) =
        after_send
          (request_of POST self (PStr "library") PNone
             [("json", PDict [("locations", paths); ("name", name);
                              ("media_type", media_type)])]) self)).
Proof.
  split.
  - intros N. pose proof (invalid_choice_true _ N) as I. repeat split.
    + intros query year. unfold tmdb_search, get_json, tmdb_search_desc.
      rewrite I. reflexivity.
    + intros media_id tmdb_id.
      unfold rematch_media_file, patch_bool, rematch_media_file_desc.
      rewrite I. reflexivity.
    + intros paths name. unfold add_library. rewrite I. reflexivity.
  - intros A. repeat split.
    + intros query year. now apply tmdb_search_sends.
    + intros media_id tmdb_id.
      now rewrite (rematch_media_file_sends media_id tmdb_id _ self A).
    + intros paths name.
      now rewrite (add_library_sends paths name _ self A).
Qed.

(** C9. [get_manifest] sends one GET request to
    [stream/{stream_id}/manifest.mpd]; on a truthy response it returns the
    response's text as it is, without calling [json()], and on a falsy
    response it returns [None]. *)
Theorem get_manifest_text stream_id start_num should_kill includes self r :
  let rq := request_of GET self
              (PStr ("stream/" ++ py_str stream_id ++ "/manifest.mpd"))
              (build_optional_params
                 [("start_num", start_num); ("should_kill", should_kill);
                  ("includes", int_list_to_string includes)]) [] in
  send rq = Ok r ->
  get_manifest stream_id start_num should_kill includes self =
    (Ok (if ok r then Some (text r) else None), after_send rq self) /\
  req_verb rq = GET /\
  req_url rq =
    _url self ++ "/" ++ "stream/" ++ py_str stream_id ++ "/manifest.mpd".
Proof.
  intros rq S. split; [| now split].
  unfold get_manifest.
  pose proof (primitive_sends GET
    (PStr ("stream/" ++ py_str stream_id ++ "/manifest.mpd"))
    (build_optional_params
       [("start_num", start_num); ("should_kill", should_kill);
        ("includes", int_list_to_string includes)]) [] self) as P.
  cbn [primitive] in P. fold rq in P. rewrite S in P.
  step_bind P. now destruct (ok r).
Qed.

End EndpointFacts.

(* ================================================================== *)
(** ** The statements at work on the sample servers *)



Lemma authentication_witness :
  @send (always granted)
    (login_request (RT := always granted) (fresh "http://host/" blank)
       (PStr "user") (PStr "secret")) = Ok granted /\
  exists c,
    __init__ (RT := always granted) "http://host/" (PStr "user")
      (PStr "secret") blank = (Ok tt, c) /\
    _token c = PStr "abc".
Proof.
  split; [reflexivity |].
  destruct (authentication (RT := always granted) "http://host/"
              (PStr "user") (PStr "secret") blank granted eq_refl)
    as (_ & _ & G & _).
  destruct (G [("token", PStr "abc")] (PStr "abc") eq_refl eq_refl eq_refl)
    as [_ I].
  eexists. split; [exact I | reflexivity].
Defined.

(** C2 as stated fails.  A truthy response whose body is the empty mapping
    makes [_authenticate] return false; a truthy response whose body has no
    [token] makes it raise, and construction then raises although
    [_authenticate] returned neither true nor false. *)
Lemma truthy_response_not_authenticated :
  (ok bare = true /\
   fst (primitive (RT := always bare) POST (PStr "auth/login") PNone
          (login_body (PStr "user") (PStr "secret"))
          (fresh "http://host/" blank)) = Ok bare /\
   fst (_authenticate (RT := always bare) (PStr "user") (PStr "secret")
          (fresh "http://host/" blank)) = Ok false) /\
  (ok tokenless = true /\
   fst (primitive (RT := always tokenless) POST (PStr "auth/login") PNone
          (login_body (PStr "user") (PStr "secret"))
          (fresh "http://host/" blank)) = Ok tokenless /\
   fst (_authenticate (RT := always tokenless) (PStr "user") (PStr "secret")
          (fresh "http://host/" blank)) = Raise (KeyError "token") /\
   fst (__init__ (RT := always tokenless) "http://host/" (PStr "user")
          (PStr "secret") blank) = Raise (KeyError "token")).
Proof. repeat split. Qed.

(** C3 as stated fails.  A server that grants the empty string as token
    yields a constructed client whose token is set, to [""], and whose
    requests carry no header at all. *)
Lemma set_token_without_header :
  exists c rq,
    __init__ (RT := always empty_token) "http://host/" (PStr "user")
      (PStr "secret") blank = (Ok tt, c) /\
    _token c = PStr "" /\
    _token c <> PNone /\
    snd (primitive (RT := always empty_token) GET (PStr "library") PNone [] c)
      = after_send rq c /\
    req_headers rq = [].
Proof.
  do 2 eexists. split; [reflexivity |]. split; [reflexivity |].
  split; [discriminate |]. split; reflexivity.
Qed.

Lemma envelope_normalization_witness :
  get_json (RT := always enveloped) libraries_desc alice =
    (Ok (PList [PInt 1; PInt 2; PInt 3]),
     after_send
       (request_of (RT := always enveloped) GET alice (PStr "library") PNone
          []) alice) /\
  get_json (RT := always listing) libraries_desc alice =
    (Ok (PList [PInt 1]),
     after_send
       (request_of (RT := always listing) GET alice (PStr "library") PNone
          []) alice).
Proof.
  destruct (envelope_normalization (RT := always enveloped))
    as (_ & _ & _ & _ & _ & _ & _ & _ & _ & W).
  destruct (envelope_normalization (RT := always listing))
    as (_ & _ & _ & _ & _ & _ & P & _ & _ & V).
  split.
  - exact (W GET libraries_desc alice (PStr "library") PNone alice enveloped
             (PDict [("data", PList [PInt 1; PInt 2; PInt 3])])
             eq_refl eq_refl eq_refl eq_refl eq_refl).
  - etransitivity;
      [exact (V GET libraries_desc alice (PStr "library") PNone alice listing
                (PList [PInt 1]) eq_refl eq_refl eq_refl eq_refl eq_refl) |].
    rewrite (P (PList [PInt 1]) eq_refl); [reflexivity |].
    intros d E. discriminate E.
Defined.

Lemma media_type_validation_witness :
  (~ allowed_media_type (PStr "book") /\
   tmdb_search (RT := always granted) (HP := sample_helpers) (PStr "x")
     (PStr "book") PNone alice =
     (Raise (Exception "Invalid media type"), alice)) /\
  (allowed_media_type (PStr "movie") /\
   sent (snd (tmdb_search (RT := always granted) (HP := sample_helpers)
                (PStr "x") (PStr "movie") PNone alice)) =
     [mkRequest GET "http://host/api/v1/tmdb_search"
        (PDict [("query", PStr "x"); ("media_type", PStr "movie")])
        [("Authorization", "abc")] []]).
Proof.
  assert (N : ~ allowed_media_type (PStr "book"))
    by (intros [E | E]; discriminate E).
  assert (A : allowed_media_type (PStr "movie")) by (left; reflexivity).
  destruct (media_type_validation (RT := always granted)
              (HP := sample_helpers) (PStr "book") alice) as [B _].
  destruct (media_type_validation (RT := always granted)
              (HP := sample_helpers) (PStr "movie") alice) as [_ G].
  split; split; [exact N | | exact A |].
  - exact (proj1 (B N) (PStr "x") PNone).
  - rewrite (proj1 (G A) (PStr "x") PNone). reflexivity.
Defined.

Lemma bool_call_returns_ok_witness :
  run_bool_call (RT := always granted)
    (RematchMediaFile (PInt 7) (PInt 603) (PStr "tv")) alice =
    (Ok true,
     after_send
       (mkRequest PATCH "http://host/api/v1/mediafile/7/match"
          (PDict [("tmdb_id", PInt 603); ("media_type", PStr "tv")])
          [("Authorization", "abc")] []) alice).
Proof.
  apply (bool_call_returns_ok (RT := always granted)
           (RematchMediaFile (PInt 7) (PInt 603) (PStr "tv")) alice granted).
  - intros media_type E. injection E as <-. right. reflexivity.
  - reflexivity.
Defined.

Lemma empty_path_skips_call_witness :
  get_json (RT := always granted) (ret (PStr "", PNone)) alice =
    (Ok (PDict []), alice) /\
  delete_bool (RT := always granted) (ret (PNone, PNone)) alice =
    (Ok false, alice).
Proof.
  split.
  - exact (proj1 (empty_path_skips_call (RT := always granted)
                    (ret (PStr "", PNone)) alice (PStr "") PNone alice
                    eq_refl eq_refl) GET).
  - exact (proj2 (empty_path_skips_call (RT := always granted)
                    (ret (PNone, PNone)) alice PNone PNone alice
                    eq_refl eq_refl) WDELETE).
Defined.

Lemma url_construction_witness :
  __init__ (RT := always granted) "http://host/" (PStr "user")
    (PStr "secret") blank = (Ok tt, logged_in) /\
  _url logged_in = "http://host/api/v1" /\
  exists rq,
    primitive (RT := always granted) GET (PStr "library") PNone [] logged_in =
      (Ok granted, after_send rq logged_in) /\
    req_url rq = "http://host/api/v1/library".
Proof.
  assert (I : __init__ (RT := always granted) "http://host/" (PStr "user")
                (PStr "secret") blank = (Ok tt, logged_in)) by reflexivity.
  destruct (url_construction (RT := always granted) "http://host"
              (PStr "user") (PStr "secret") blank logged_in I)
    as (U & _ & P & _).
  destruct (P GET (PStr "library") PNone []) as (rq & Q & R).
  split; [exact I |]. split; [exact U |].
  exists rq. split; [exact Q | exact R].
Defined.

Lemma get_manifest_text_witness :
  get_manifest (RT := always manifest) (HP := sample_helpers) (PStr "s1")
    (PInt 0) (PBool false) PNone alice =
    (Ok (Some "<MPD/>"),
     after_send
       (mkRequest GET "http://host/api/v1/stream/s1/manifest.mpd"
          (PDict [("start_num", PInt 0); ("should_kill", PBool false)])
          [("Authorization", "abc")] []) alice).
Proof.
  exact (proj1 (get_manifest_text (RT := always manifest)
                  (HP := sample_helpers) (PStr "s1") (PInt 0) (PBool false)
                  PNone alice manifest eq_refl)).
Defined.

Lemma missing_token_key_witness :
  __init__ (RT := always tokenless) "http://host/" (PStr "user")
    (PStr "secret") blank =
    (Raise (KeyError "token"),
     after_send
       (login_request (RT := always tokenless) (fresh "http://host/" blank)
          (PStr "user") (PStr "secret")) (fresh "http://host/" blank)).
Proof.
  destruct (missing_token_key (RT := always tokenless) "http://host/"
              (PStr "user") (PStr "secret") blank) as [_ K].
  refine (proj2 (K tokenless [("foo", PInt 1)] eq_refl eq_refl eq_refl _
                   eq_refl)).
  discriminate.
Defined.

(* ================================================================== *)
(** ** Further facts: construction and failures *)

Section ConstructionFacts.

Context `{RT : Runtime}.

(** X1. A base URL may be given with or without its trailing slash: the
    two constructions are the same computation. *)
Theorem trailing_slash_is_optional s username password self0 :
  endswith_slash s = false ->
  api_url (s ++ "/") = api_url s /\
  __init__ (s ++ "/") username password self0 =
    __init__ s username password self0.
Proof.
  intros E.
  assert (api_url (s ++ "/") = api_url s) as U
    by now rewrite api_url_slash, api_url_plain.
  split; [exact U |]. unfold __init__. now rewrite U.
Qed.

(** X2. Whatever comes of it, construction hands the session exactly one
    request: a POST to [auth/login] under the stored URL, with empty query
    parameters, no header (no token is held yet, even when the object
    replaces an authenticated one), and the credentials as JSON body. *)
Theorem construction_sends_login base_url username password self0 :
  sent (snd (__init__ base_url username password self0)) =
    (sent self0 ++
     [mkRequest POST (api_url base_url ++ "/auth/login") (PDict []) []
        [("json", PDict [("username", username); ("password", password)])]])
    %list.
Proof.
  rewrite __init___unfold.
  pose proof (_authenticate_frame username password (fresh base_url self0))
    as [_ S].
  destruct (_authenticate _ _ _) as [[[|] | e] c]; exact S.
Qed.

(** X3. When the session raises on the request of a primitive, the
    primitive and its [_json] variant raise the same exception: neither
    turns it into a response or into the empty mapping. *)
Theorem session_failure_propagates v command params kwargs self e :
  let rq := request_of v self command params kwargs in
  send rq = Raise e ->
  primitive v command params kwargs self = (Raise e, after_send rq self) /\
  primitive_json v command params kwargs self = (Raise e, after_send rq self).
Proof.
  intros rq S.
  pose proof (primitive_sends v command params kwargs self) as P.
  fold rq in P. rewrite S in P. split; [exact P |].
  rewrite primitive_json_unfold. now step_bind P.
Qed.

(** X4. When a truthy response has a body that [json()] cannot decode,
    every [_json] variant raises what [json()] raised. *)
Theorem undecodable_body_raises v command params kwargs self r e :
  let rq := request_of v self command params kwargs in
  send rq = Ok r -> ok r = true -> json r = Raise e ->
  primitive_json v command params kwargs self = (Raise e, after_send rq self).
Proof.
  intros rq S T J.
  pose proof (primitive_sends v command params kwargs self) as P.
  fold rq in P. rewrite S in P.
  rewrite primitive_json_unfold. step_bind P. rewrite T.
  unfold lift. now rewrite J.
Qed.

(** X9. [_authenticate] writes the token only when it returns true: if it
    returns false or raises, the token it found is still there, and in
    every case [_url] is kept and the login request is the one request
    sent. *)
Theorem token_written_only_on_success username password self :
  let out := _authenticate username password self in
  fst out <> Ok true ->
  _token (snd out) = _token self /\
  _url (snd out) = _url self /\
  sent (snd out) =
    (sent self ++ [login_request self username password])%list.
Proof.
  cbv zeta. intros N.
  pose proof (_authenticate_frame username password self) as [U S].
  split; [| now split].
  rewrite _authenticate_unfold in *. cbv zeta in *.
  destruct (send _) as [r | e]; [| reflexivity].
  destruct (ok r); [| reflexivity].
  destruct (json r) as [body | e]; [| reflexivity].
  destruct (truthy body); [| reflexivity].
  destruct (getitem body "token"); [| reflexivity].
  now contradiction N.
Qed.

(** X10. A truthy login response whose decoded body is truthy but not a
    mapping (a list, a string, a number, [True]) makes [_authenticate], and
    with it construction, raise [TypeError]. *)
Theorem non_mapping_login_body base_url username password self0 r body :
  let self := fresh base_url self0 in
  let rq := login_request self username password in
  send rq = Ok r -> ok r = true -> json r = Ok body ->
  truthy body = true -> (forall d, body <> PDict d) ->
  _authenticate username password self =
    (Raise TypeError, after_send rq self) /\
  __init__ base_url username password self0 =
    (Raise TypeError, after_send rq self).
Proof.
  intros self rq S T J B N.
  assert (A := _authenticate_unfold username password self).
  cbv zeta in A. fold rq in A. rewrite S, T, J, B in A.
  assert (getitem body "token" = Raise TypeError) as G.
  { destruct body; try reflexivity. now contradiction (N d). }
  rewrite G in A. split; [exact A |].
  rewrite __init___unfold. fold self. now rewrite A.
Qed.

End ConstructionFacts.

(* ================================================================== *)
(** ** Further facts: wrappers and the endpoint surface *)

Section SurfaceFacts.

Context `{RT : Runtime} `{HP : Helpers}.

Lemma invalid_choice_false_inv media_type :
  _is_invalid_choice media_type "media_type" media_types = false ->
  allowed_media_type media_type.
Proof.
  destruct media_type as [| | | | s | |]; try discriminate. cbn.
  destruct (String.eqb_spec s "movie") as [E | _];
    [intros _; left; now rewrite E |].
  destruct (String.eqb_spec s "tv") as [E | _];
    [intros _; right; now rewrite E | discriminate].
Qed.

Lemma bool_wrapper_state w func self command params self' :
  func self = (Ok (command, params), self') ->
  truthy command = true ->
  snd (bool_wrapper w func self) =
    after_send (request_of (verb_of w) self' command params []) self'.
Proof.
  intros F T. now rewrite (bool_wrapper_sends w func self command params self').
Qed.

Lemma json_wrapper_state v func self command params self' :
  func self = (Ok (command, params), self') ->
  truthy command = true ->
  snd (json_wrapper v func self) =
    after_send (request_of v self' command params []) self'.
Proof.
  intros F T. now rewrite (json_wrapper_sends v func self command params self').
Qed.

(** X5. Around a method that computed a truthy path, no wrapper hides a
    failure: an exception of the session comes out of all seven wrappers,
    and an undecodable body of a truthy response comes out of the four JSON
    wrappers as the exception of [json()].  The three boolean wrappers
    never call [json()]: they return [ok] whatever the body is. *)
Theorem wrapper_failure_propagates func self command params self' :
  func self = (Ok (command, params), self') ->
  truthy command = true ->
  (forall v e,
     send (request_of v self' command params []) = Raise e ->
     json_wrapper v func self =
       (Raise e, after_send (request_of v self' command params []) self')) /\
  (forall w e,
     send (request_of (verb_of w) self' command params []) = Raise e ->
     bool_wrapper w func self =
       (Raise e,
        after_send (request_of (verb_of w) self' command params []) self')) /\
  (forall v r e,
     send (request_of v self' command params []) = Ok r ->
     ok r = true -> json r = Raise e ->
     json_wrapper v func self =
       (Raise e, after_send (request_of v self' command params []) self')) /\
  (forall w r,
     send (request_of (verb_of w) self' command params []) = Ok r ->
     bool_wrapper w func self =
       (Ok (ok r),
        after_send (request_of (verb_of w) self' command params []) self')).
Proof.
  intros F T. repeat split.
  - intros v e S.
    rewrite (json_wrapper_sends v func self command params self' F T).
    cbv zeta. now rewrite S.
  - intros w e S.
    rewrite (bool_wrapper_sends w func self command params self' F T).
    cbv zeta. now rewrite S.
  - intros v r e S O J.
    rewrite (json_wrapper_sends v func self command params self' F T).
    cbv zeta. now rewrite S, O, J.
  - intros w r S.
    rewrite (bool_wrapper_sends w func self command params self' F T).
    cbv zeta. now rewrite S.
Qed.

(** X8. Around a method that computed a truthy path, each of the seven
    wrappers sends one request of its verb to the path under the stored
    URL; the method's parameters travel as query parameters (the empty
    mapping when they are falsy) and the primitive is given no keyword
    argument, so the request never has a body. *)
Theorem wrapper_request_shape func self command params self' :
  func self = (Ok (command, params), self') ->
  truthy command = true ->
  let shape v rq :=
    req_verb rq = v /\
    req_url rq = _url self' ++ "/" ++ py_str command /\
    req_params rq = (if truthy params then params else PDict []) /\
    req_kwargs rq = [] in
  (forall v, exists rq,
     snd (json_wrapper v func self) = after_send rq self' /\ shape v rq) /\
  (forall w, exists rq,
     snd (bool_wrapper w func self) = after_send rq self' /\
     shape (verb_of w) rq).
Proof.
  intros F T shape. split.
  - intros v. exists (request_of v self' command params []).
    split; [now apply json_wrapper_state |].
    destruct v; now repeat split.
  - intros w. exists (request_of (verb_of w) self' command params []).
    split; [now apply bool_wrapper_state |].
    destruct w; now repeat split.
Qed.

(** Through [get_json], for a method that returns its path outright. *)
Ltac via_get_json :=
  split; [cbn; discriminate | apply (json_wrapper_sends GET); reflexivity].

(** X6. None of the seventeen JSON-returning methods computes an empty
    path: called with an allowed media type where it takes one, each sends
    exactly one GET request to its path (so the empty-path guard of
    [get_json] never fires for them) and returns the normalization of the
    body decoded from a truthy response, the normalization of the empty
    mapping on a falsy response, and raises what the session or [json()]
    raised. *)
Theorem json_call_sends_one_get c self :
  (forall media_type,
     json_call_media_type c = Some media_type ->
     allowed_media_type media_type) ->
  let rq := json_call_request c self in
  json_call_path c <> "" /\
  run_json_call c self =
    (match send rq with
     | Ok r =>
         if ok r then
           match json r with
           | Ok body => Ok (_get_response_data body)
           | Raise e => Raise e
           end
         else Ok (_get_response_data static.empty_dict)
     | Raise e => Raise e
     end, after_send rq self).
Proof.
  intros A rq. subst rq.
  destruct c; cbn [run_json_call]; try via_get_json.
  split; [discriminate |].
  apply (json_wrapper_sends GET); [| reflexivity].
  unfold tmdb_search_desc.
  now rewrite (invalid_choice_false media_type (A _ eq_refl)).
Qed.

Lemma json_call_state c self :
  (forall media_type,
     json_call_media_type c = Some media_type ->
     allowed_media_type media_type) ->
  snd (run_json_call c self) = after_send (json_call_request c self) self.
Proof.
  intros A.
  destruct c; cbn [run_json_call];
    try (apply (json_wrapper_state GET); reflexivity).
  apply (json_wrapper_state GET); [| reflexivity].
  unfold tmdb_search_desc.
  now rewrite (invalid_choice_false media_type (A _ eq_refl)).
Qed.

(** One call leaves the client as it was or adds to it one request,
    built by a primitive from the client as the call found it. *)
Lemma after_call_step c self :
  after_call c self = self \/
  exists v command params kwargs,
    after_call c self =
      after_send (request_of v self command params kwargs) self.
Proof.
  destruct c as [b | j | stream_id start_num should_kill includes];
    cbn [after_call].
  - destruct b; cbn [run_bool_call];
      try (right; do 4 eexists; apply (bool_wrapper_state WPATCH);
           reflexivity);
      try (right; do 4 eexists; apply (bool_wrapper_state WPOST);
           reflexivity);
      try (right; do 4 eexists; apply (bool_wrapper_state WDELETE);
           reflexivity).
    + destruct (_is_invalid_choice media_type "media_type" media_types)
        eqn:I.
      * left. unfold rematch_media_file, patch_bool, rematch_media_file_desc.
        now rewrite I.
      * right. do 4 eexists.
        rewrite (rematch_media_file_sends media_id tmdb_id media_type
                   self (invalid_choice_false_inv _ I)).
        reflexivity.
    + destruct (_is_invalid_choice media_type "media_type" media_types)
        eqn:I.
      * left. unfold add_library. now rewrite I.
      * right. do 4 eexists.
        rewrite (add_library_sends paths name media_type self
                   (invalid_choice_false_inv _ I)).
        reflexivity.
  - destruct (match json_call_media_type j with
              | Some media_type =>
                  _is_invalid_choice media_type "media_type" media_types
              | None => false
              end) eqn:I.
    + left. destruct j; try discriminate I. cbn in I. cbn [run_json_call].
      unfold tmdb_search, get_json, tmdb_search_desc. now rewrite I.
    + right. exists GET, (PStr (json_call_path j)), (json_call_params j), [].
      apply json_call_state.
      intros media_type E. rewrite E in I.
      now apply invalid_choice_false_inv.
  - right. do 4 eexists. unfold get_manifest, bind.
    rewrite (primitive_sends GET _ _ [] self : _get _ _ self = _).
    destruct (send _) as [r | e]; [destruct (ok r) |]; reflexivity.
Qed.

(** A run of calls only extends the trace, by at most one request per
    call, each built by a primitive from the [_url] and [_token] the run
    started with. *)
Lemma after_calls_requests cs : forall self, exists rqs,
  after_calls cs self =
    mkClient (_url self) (_token self) (sent self ++ rqs)%list /\
  (List.length rqs <= List.length cs)%nat /\
  Forall (fun rq => exists v command params kwargs,
                      rq = request_of v self command params kwargs) rqs.
Proof.
  induction cs as [| c cs IH]; intros self; cbn [after_calls].
  - exists []. rewrite app_nil_r. destruct self. repeat split; constructor.
  - destruct (after_call_step c self)
      as [E | (v & command & params & kwargs & E)]; rewrite E.
    + destruct (IH self) as (rqs & S & L & F).
      exists rqs. repeat split; [exact S | now apply le_S | exact F].
    + set (rq := request_of v self command params kwargs) in *.
      destruct (IH (after_send rq self)) as (rqs & S & L & F).
      exists (rq :: rqs). repeat split.
      * rewrite S. unfold after_send. cbn [_url _token sent].
        now rewrite <- app_assoc.
      * cbn [List.length]. now apply le_n_S.
      * constructor; [now exists v, command, params, kwargs | exact F].
Qed.

(** X7. Whatever public methods are called on a client, in whatever
    order and with whatever outcome, [_url] and [_token] stay what they
    were; each call adds at most one request, and every request added
    carries the [Authorization] header of that token (or none when the
    token is falsy). *)
Theorem calls_keep_url_and_token cs self :
  let expected :=
    if truthy (_token self)
    then [("Authorization", py_str (_token self))]
    else [] in
  _url (after_calls cs self) = _url self /\
  _token (after_calls cs self) = _token self /\
  exists rqs,
    sent (after_calls cs self) = (sent self ++ rqs)%list /\
    (List.length rqs <= List.length cs)%nat /\
    Forall (fun rq => req_headers rq = expected) rqs.
Proof.
  intros expected.
  destruct (after_calls_requests cs self) as (rqs & S & L & F).
  rewrite S. cbn [_url _token sent]. repeat split.
  exists rqs. repeat split; [exact L |].
  eapply Forall_impl; [| exact F].
  intros rq (v & command & params & kwargs & E). now subst rq.
Qed.

(** X11. Construction and use together: when the login response is truthy
    and its body holds a non-empty string under [token], construction
    succeeds, and every request of every later call of a public method
    goes to a path under the stored URL with the header [Authorization]
    set to exactly that string. *)
Theorem constructed_client_sends_token base_url username password self0
  r d t :
  let self := fresh base_url self0 in
  send (login_request self username password) = Ok r ->
  ok r = true -> json r = Ok (PDict d) ->
  lookup "token" d = Some (PStr t) -> t <> "" ->
  exists c,
    __init__ base_url username password self0 = (Ok tt, c) /\
    forall cs, exists rqs,
      sent (after_calls cs c) = (sent c ++ rqs)%list /\
      Forall (fun rq =>
                req_headers rq = [("Authorization", t)] /\
                exists command,
                  req_url rq = api_url base_url ++ "/" ++ py_str command)
        rqs.
Proof.
  intros self S O J L N.
  assert (A := _authenticate_unfold username password self).
  cbv zeta in A. rewrite S, O, J in A. cbn [getitem] in A. rewrite L in A.
  assert (truthy (PDict d) = true) as Tr
    by (destruct d; [discriminate L | reflexivity]).
  rewrite Tr in A.
  eexists. split.
  - rewrite __init___unfold. fold self. rewrite A. reflexivity.
  - intros cs.
    match goal with |- context [after_calls cs ?c] =>
      destruct (after_calls_requests cs c) as (rqs & R & _ & F) end.
    exists rqs. rewrite R. cbn [sent]. split; [reflexivity |].
    eapply Forall_impl; [| exact F].
    intros rq (v & command & params & kwargs & E). subst rq.
    cbn [request_of req_headers req_url _token _url truthy].
    destruct (String.eqb_spec t "") as [Z | _]; [contradiction |].
    cbn [negb]. split; [reflexivity | now exists command].
Qed.

End SurfaceFacts.

(* ================================================================== *)
(** ** The further facts at work on the sample servers *)

Lemma trailing_slash_is_optional_witness :
  api_url "http://host/" = api_url "http://host" /\
  __init__ (RT := always granted) "http://host/" (PStr "user")
    (PStr "secret") blank =
    __init__ (RT := always granted) "http://host" (PStr "user")
      (PStr "secret") blank.
Proof.
  exact (trailing_slash_is_optional (RT := always granted) "http://host"
           (PStr "user") (PStr "secret") blank eq_refl).
Defined.

Lemma session_failure_propagates_witness :
  primitive_json (RT := unreachable) GET (PStr "library") PNone [] alice =
    (Raise ConnectionError,
     after_send
       (mkRequest GET "http://host/api/v1/library" (PDict [])
          [("Authorization", "abc")] []) alice).
Proof.
  exact (proj2 (session_failure_propagates (RT := unreachable) GET
                  (PStr "library") PNone [] alice ConnectionError eq_refl)).
Defined.

Lemma undecodable_body_raises_witness :
  primitive_json (RT := always manifest) DELETE (PStr "media/7") PNone []
    alice =
    (Raise JSONDecodeError,
     after_send
       (mkRequest DELETE "http://host/api/v1/media/7" (PDict [])
          [("Authorization", "abc")] []) alice).
Proof.
  exact (undecodable_body_raises (RT := always manifest) DELETE
           (PStr "media/7") PNone [] alice manifest JSONDecodeError
           eq_refl eq_refl eq_refl).
Defined.

Lemma wrapper_failure_propagates_witness :
  get_json (RT := unreachable) libraries_desc alice =
    (Raise ConnectionError,
     after_send
       (mkRequest GET "http://host/api/v1/library" (PDict [])
          [("Authorization", "abc")] []) alice) /\
  patch_json (RT := always manifest) libraries_desc alice =
    (Raise JSONDecodeError,
     after_send
       (mkRequest PATCH "http://host/api/v1/library" (PDict [])
          [("Authorization", "abc")] []) alice) /\
  post_bool (RT := always manifest) libraries_desc alice =
    (Ok true,
     after_send
       (mkRequest POST "http://host/api/v1/library" (PDict [])
          [("Authorization", "abc")] []) alice).
Proof.
  destruct (wrapper_failure_propagates (RT := unreachable) libraries_desc
              alice (PStr "library") PNone alice eq_refl eq_refl)
    as (U & _).
  destruct (wrapper_failure_propagates (RT := always manifest) libraries_desc
              alice (PStr "library") PNone alice eq_refl eq_refl)
    as (_ & _ & J & B).
  split; [exact (U GET ConnectionError eq_refl) |].
  split; [exact (J PATCH manifest JSONDecodeError eq_refl eq_refl eq_refl) |].
  exact (B WPOST manifest eq_refl).
Defined.

Lemma json_call_sends_one_get_witness :
  run_json_call (RT := always enveloped) (HP := sample_helpers)
    (TmdbSearch (PStr "x") (PStr "movie") PNone) alice =
    (Ok (PList [PInt 1; PInt 2; PInt 3]),
     after_send
       (mkRequest GET "http://host/api/v1/tmdb_search"
          (PDict [("query", PStr "x"); ("media_type", PStr "movie")])
          [("Authorization", "abc")] []) alice).
Proof.
  refine (proj2 (json_call_sends_one_get (RT := always enveloped)
                   (HP := sample_helpers)
                   (TmdbSearch (PStr "x") (PStr "movie") PNone) alice _)).
  intros media_type E. injection E as <-. left. reflexivity.
Defined.

Lemma wrapper_request_shape_witness :
  exists rq,
    snd (patch_bool (RT := always granted)
           (update_media_desc (RT := always granted) (PInt 7)
              [("name", PStr "Alien")]) alice) = after_send rq alice /\
    req_verb rq = PATCH /\
    req_url rq = "http://host/api/v1/media/7" /\
    req_params rq = PDict [("data", PDict [("name", PStr "Alien")])] /\
    req_kwargs rq = [].
Proof.
  destruct (wrapper_request_shape (RT := always granted)
              (update_media_desc (RT := always granted) (PInt 7)
                 [("name", PStr "Alien")]) alice
              (PStr "media/7")
              (PDict [("data", PDict [("name", PStr "Alien")])]) alice
              eq_refl eq_refl) as [_ B].
  destruct (B WPATCH) as (rq & S & V & U & P & K).
  exists rq. split; [exact S |]. split; [exact V |]. split; [exact U |].
  split; [exact P | exact K].
Defined.

Lemma token_written_only_on_success_witness :
  fst (_authenticate (RT := always denied) (PStr "user") (PStr "wrong")
         alice) = Ok false /\
  _token (snd (_authenticate (RT := always denied) (PStr "user")
                 (PStr "wrong") alice)) = PStr "abc".
Proof.
  split; [reflexivity |].
  refine (proj1 (token_written_only_on_success (RT := always denied)
                   (PStr "user") (PStr "wrong") alice _)).
  discriminate.
Defined.

Lemma non_mapping_login_body_witness :
  fst (__init__ (RT := always listing) "http://host/" (PStr "user")
         (PStr "secret") blank) = Raise TypeError.
Proof.
  destruct (non_mapping_login_body (RT := always listing) "http://host/"
              (PStr "user") (PStr "secret") blank listing
              (PList [PInt 1]) eq_refl eq_refl eq_refl eq_refl) as [_ I].
  - intros d E. discriminate E.
  - now rewrite I.
Defined.

Lemma constructed_client_sends_token_witness :
  exists rqs,
    sent (after_calls (RT := always granted) (HP := sample_helpers)
            [JsonCall Libraries; BoolCall (DeleteMedia (PInt 7))] logged_in) =
      (sent logged_in ++ rqs)%list /\
    Forall (fun rq => req_headers rq = [("Authorization", "abc")]) rqs.
Proof.
  destruct (constructed_client_sends_token (RT := always granted)
              (HP := sample_helpers) "http://host/" (PStr "user")
              (PStr "secret") blank granted [("token", PStr "abc")] "abc"
              eq_refl eq_refl eq_refl eq_refl) as (c & I & R).
  - discriminate.
  - assert (c = logged_in) as -> by (now inversion I).
    destruct (R [JsonCall Libraries; BoolCall (DeleteMedia (PInt 7))])
      as (rqs & S & F).
    exists rqs. split; [exact S |].
    eapply Forall_impl; [| exact F]. now intros rq [Hh _].
Defined.
